(** * ObjectiveFunction: shift, noise, staging and parallel evaluation

    A shallow embedding of [src/MDAF_benchmarks/objective_function.py].

    Modelling conventions.
    - Numbers.  NumPy floats are modelled by an arbitrary commutative ring
      with decidable equality and a boolean order test ([Scalar]); rounding
      and the special float values are not modelled.  The NaN that
      [parallel_evaluate] pre-fills its result array with is a separate
      constructor of [cell].
    - Arrays.  One-dimensional arrays are lists; the binary operators follow
      NumPy broadcasting for one-dimensional operands ([broadcast2], [iadd]).
    - Exceptions.  Fallible code returns [result]; [Raise e] is a Python
      exception that leaves the function.
    - Randomness.  [np.random.randn] is a stream of samples handed to the
      function that draws from it.
    - Files.  The file system is a finite map from paths to contents.  One
      call of [parallel_evaluate] is modelled, in an interpreter that has not
      imported the staged module before; the file that the import statement
      loads is a parameter, [module_file].
    - Generated code.  The text that [__decouple_evaluate] writes is kept as
      the record [code]: the inserted shift statement, the body of the
      [evaluate] method with the parameter values written in, and the noise
      suffix appended to the return statement.  How numbers are printed into
      that text is not modelled.
    - Plotting, timing and profiling are left out; of the derivatives only
      the two attributes that hold them are kept, as [pickle] meets them. *)

From Stdlib Require Import ZArith Ring Permutation.
From stdpp Require Import gmap strings list.

(** ** Numbers *)

Class Scalar (R : Type) := {
  s0 : R;
  s1 : R;
  sadd : R -> R -> R;
  smul : R -> R -> R;
  ssub : R -> R -> R;
  sopp : R -> R;
  sltb : R -> R -> bool;
  s_eq_dec :: EqDecision R;
  s_ring : ring_theory s0 s1 sadd smul ssub sopp eq
}.

#[export] Instance Z_scalar : Scalar Z :=
  {| s0 := 0%Z; s1 := 1%Z; sadd := Z.add; smul := Z.mul; ssub := Z.sub;
     sopp := Z.opp; sltb := Z.ltb; s_ring := InitialRing.Zth |}.

(** ** Exceptions *)

Inductive exn :=
| ValueError (msg : string)
| NameError (msg : string)
| ImportError (msg : string)
| Exception (msg : string)
| FileNotFoundError (msg : string)
| EOFError (msg : string)
| AttributeError (msg : string)
| FormulaError (msg : string).

Inductive result (A : Type) :=
| Ok (a : A)
| Raise (e : exn).
Arguments Ok {A} a.
Arguments Raise {A} e.

#[export] Instance result_ret : MRet result := fun _ a => Ok a.
#[export] Instance result_bind : MBind result := fun _ _ f m =>
  match m with Ok a => f a | Raise e => Raise e end.


Section objective_function.
Context {R : Type} `{Scalar R}.
Add Ring scalar_ring : s_ring.

(** Python truthiness of a number: [bool(x)] is [x != 0]. *)
Definition truthy (x : R) : bool := bool_decide (x ≠ s0).

(** ** One-dimensional arrays *)

Definition broadcast_error : exn :=
  ValueError "operands could not be broadcast together".

(** [a ⊙ b] for one-dimensional arrays: equal lengths combine elementwise, a
    one-element operand is stretched over the other one, anything else
    raises. *)
Definition broadcast2 {A} (f : R -> R -> A) (a b : list R) : result (list A) :=
  if decide (length a = length b) then Ok (zip_with f a b)
  else match a, b with
       | _, [y] => Ok (map (fun x => f x y) a)
       | [x], _ => Ok (map (fun y => f x y) b)
       | _, _ => Raise broadcast_error
       end.

(** [position - shift]. *)
Definition vsub (a b : list R) : result (list R) := broadcast2 ssub a b.

(** [a += b]: the result is stored in [a], so only [b] may be stretched. *)
Definition iadd (a b : list R) : result (list R) :=
  if decide (length a = length b) then Ok (zip_with sadd a b)
  else match b with
       | [y] => Ok (map (fun x => sadd x y) a)
       | _ => Raise broadcast_error
       end.

(** [np.zeros(n)]. *)
Definition zeros (n : nat) : list R := replicate n s0.

(** [np.random.randn(n)]: the first [n] samples of the stream. *)
Definition randn (noise : nat -> R) (n : nat) : list R := map noise (seq 0 n).

(** [any(v)]. *)
Definition any (v : list R) : bool := existsb truthy v.

(** ** The instance *)

Record ObjectiveFunction := {
  ndim : nat;
  (* None: not set; Some rows: an array of shape (len rows, 2) *)
  search_space_bounds : option (list (R * R));
  (* None, or the rows of the array of optimal points *)
  optimal_solution_position : option (list (list R));
  parameters : gmap string R;
  shift : list R;
  noise_mean : R;
  noise_variance : R;
  nb_calls : nat;
  (* the subclass's [evaluate]: what it computes from [self.parameters] and
     the position, and whether its text has a return statement *)
  evaluate_method : gmap string R -> list R -> result R;
  evaluate_has_return : bool
}.

Definition set_shift (self : ObjectiveFunction) (s : list R) : ObjectiveFunction :=
  {| ndim := ndim self;
     search_space_bounds := search_space_bounds self;
     optimal_solution_position := optimal_solution_position self;
     parameters := parameters self;
     shift := s;
     noise_mean := noise_mean self;
     noise_variance := noise_variance self;
     nb_calls := nb_calls self;
     evaluate_method := evaluate_method self;
     evaluate_has_return := evaluate_has_return self |}.

Definition set_optimal_solution_position (self : ObjectiveFunction)
    (o : option (list (list R))) : ObjectiveFunction :=
  {| ndim := ndim self;
     search_space_bounds := search_space_bounds self;
     optimal_solution_position := o;
     parameters := parameters self;
     shift := shift self;
     noise_mean := noise_mean self;
     noise_variance := noise_variance self;
     nb_calls := nb_calls self;
     evaluate_method := evaluate_method self;
     evaluate_has_return := evaluate_has_return self |}.

Definition set_noise (self : ObjectiveFunction) (mean variance : R) : ObjectiveFunction :=
  {| ndim := ndim self;
     search_space_bounds := search_space_bounds self;
     optimal_solution_position := optimal_solution_position self;
     parameters := parameters self;
     shift := shift self;
     noise_mean := mean;
     noise_variance := variance;
     nb_calls := nb_calls self;
     evaluate_method := evaluate_method self;
     evaluate_has_return := evaluate_has_return self |}.

Definition set_nb_calls (self : ObjectiveFunction) (n : nat) : ObjectiveFunction :=
  {| ndim := ndim self;
     search_space_bounds := search_space_bounds self;
     optimal_solution_position := optimal_solution_position self;
     parameters := parameters self;
     shift := shift self;
     noise_mean := noise_mean self;
     noise_variance := noise_variance self;
     nb_calls := n;
     evaluate_method := evaluate_method self;
     evaluate_has_return := evaluate_has_return self |}.

(** [self.evaluate(position)], the abstract method a subclass implements. *)
Definition evaluate (self : ObjectiveFunction) (position : list R) : result R :=
  evaluate_method self (parameters self) position.

(** [self(position)]. *)
Definition __call__ (self : ObjectiveFunction) (position : list R) : result R :=
  evaluate self position.

(** [count_calls]: the counter goes up before the wrapped method runs, so it
    also counts a call that raises. *)
Definition count_calls {A B} (foo : ObjectiveFunction -> A -> result B)
    (self : ObjectiveFunction) (a : A) : ObjectiveFunction * result B :=
  let self' := set_nb_calls self (S (nb_calls self)) in
  (self', foo self' a).

(** The body of [__evaluate]:
    [self.evaluate(position - self.shift) + self.noise_mean
       + np.random.randn(position.shape[0]) * self.noise_variance].
    The last summand is an array with one entry per entry of [position], and
    so is the sum. *)
Definition evaluate_body (noise : nat -> R) (self : ObjectiveFunction)
    (position : list R) : result (list R) :=
  shifted ← vsub position (shift self);
  v ← evaluate self shifted;
  mret (map (fun r => sadd (sadd v (noise_mean self)) (smul r (noise_variance self)))
            (randn noise (length position))).

Definition __evaluate (noise : nat -> R) (self : ObjectiveFunction)
    (position : list R) : ObjectiveFunction * result (list R) :=
  count_calls (evaluate_body noise) self position.

(** [apply_shift]: the optimal points are moved in place first, then the
    shift is stored (it replaces the previous one). *)
Definition apply_shift (self : ObjectiveFunction) (s : list R) : result ObjectiveFunction :=
  match optimal_solution_position self with
  | None => Ok (set_shift self s)
  | Some rows =>
      rows' ← mapM (fun row => iadd row s) rows;
      mret (set_shift (set_optimal_solution_position self (Some rows')) s)
  end.

Definition apply_noise (self : ObjectiveFunction) (mean variance : R) : ObjectiveFunction :=
  set_noise self mean variance.

(** ** check_constraints *)

(** [not a] for an array of shape (len rows, 2).  An empty array is falsy;
    NumPy refuses the truth value of an array with more than one element, and
    one row already has two. *)
Definition array_not (rows : list (R * R)) : result bool :=
  match rows with
  | [] => Ok true
  | _ :: _ =>
      Raise (ValueError "The truth value of an array with more than one element is ambiguous")
  end.

(** [np.any((position < bounds[:, 0]) | (position > bounds[:, 1]))]. *)
Definition outside_bounds (rows : list (R * R)) (position : list R) : result bool :=
  below ← broadcast2 sltb position (map fst rows);
  above ← broadcast2 (fun x hi => sltb hi x) position (map snd rows);
  mret (existsb id (zip_with orb below above)).

Definition no_constraints : exn :=
  ValueError "No constraints on the search space have been defined for this objective function.".

(** [check_constraints]: the guard [if not self.search_space_bounds] runs
    first, the comparison with the bounds after it. *)
Definition check_constraints (self : ObjectiveFunction) (position : list R) : result bool :=
  match search_space_bounds self with
  | None => Raise no_constraints
  | Some rows =>
      unset ← array_not rows;
      if (unset : bool) then Raise no_constraints
      else outside_bounds rows position
  end.

(** ** The decoupled evaluate function *)

(** The module written to [DECOUPLED_FUNCTION_PATH], by structure:
    - [code_shift]: the statement [position += np.array(shift)] inserted after
      the def line, when there is one;
    - [code_body]: the statements of [evaluate], with every
      [self.parameters['k']] replaced by the value it had when the text was
      produced;
    - [code_has_return]: whether [re.search("return.*", code)] finds a line;
    - [code_noise]: the suffix [+ mean + np.random.randn() * variance] appended
      to the return line, when there is one. *)
Record code := {
  code_shift : option (list R);
  code_body : list R -> result R;
  code_has_return : bool;
  code_noise : option (R * R)
}.

(** What the function defined by the module computes in a worker; [sample] is
    the value its [np.random.randn()] draws. *)
Definition run_code (c : code) (sample : R) (position : list R) : result R :=
  p ← match code_shift c with
      | Some s => iadd position s
      | None => Ok position
      end;
  v ← code_body c p;
  mret (match code_noise c with
        | Some (mean, variance) => sadd (sadd v mean) (smul sample variance)
        | None => v
        end).

(** [inspect.getsource(self.evaluate)] after [__remove_docstrings], the removal
    of [self,] and [__remove_self_references].  The method is one that the
    rewriting supports: it reaches the instance only through
    [self.parameters['k']] with one-character keys in single quotes, which the
    regular expression of [__remove_self_references] recognises.  For such a
    method the rewritten text computes what the method computes, with the
    parameters fixed at the values they have now. *)
Definition evaluate_source (self : ObjectiveFunction) : code :=
  {| code_shift := None;
     code_body := evaluate_method self (parameters self);
     code_has_return := evaluate_has_return self;
     code_noise := None |}.

(** [__decouple_shift_noise], on the text of [evaluate], which has neither a
    shift statement nor a noise suffix yet. *)
Definition __decouple_shift_noise (self : ObjectiveFunction) (c : code) : result code :=
  let c1 :=
    if any (shift self)
    then {| code_shift := Some (shift self);
            code_body := code_body c;
            code_has_return := code_has_return c;
            code_noise := code_noise c |}
    else c in
  if truthy (noise_mean self) || truthy (noise_variance self) then
    if code_has_return c1
    then Ok {| code_shift := code_shift c1;
               code_body := code_body c1;
               code_has_return := code_has_return c1;
               code_noise := Some (noise_mean self, noise_variance self) |}
    else Raise (ValueError "Could not find the return statement in the evaluate method.")
  else Ok c1.

Definition DECOUPLED_FUNCTION_PATH : string :=
  "./src/objective_functions/tmp/decoupled_evaluate.py".

(** [__decouple_evaluate]: the file is opened for writing only after the text
    has been produced, so a failure of [__decouple_shift_noise] leaves the
    file system as it was. *)
Definition __decouple_evaluate (self : ObjectiveFunction) (fs : gmap string code)
    : result (gmap string code) :=
  c ← __decouple_shift_noise self (evaluate_source self);
  mret (<[DECOUPLED_FUNCTION_PATH := c]> fs).

(** [__delete_decoupled_evaluate]: remove the file if it exists. *)
Definition __delete_decoupled_evaluate (fs : gmap string code) : gmap string code :=
  if decide (is_Some (fs !! DECOUPLED_FUNCTION_PATH))
  then delete DECOUPLED_FUNCTION_PATH fs
  else fs.

(** ** parallel_evaluate *)

(** An entry of the array made by [np.full(len(positions), np.nan)]. *)
Inductive cell :=
| Num (v : R)
| NaN.

(** [ProcessPoolExecutor(max_workers=max_workers)]: the constructor raises
    ValueError when [max_workers] is given and is not positive. *)
Definition ProcessPoolExecutor (max_workers : option Z) : result unit :=
  match max_workers with
  | Some n =>
      if (n <=? 0)%Z then Raise (ValueError "max_workers must be greater than 0")
      else Ok ()
  | None => Ok ()
  end.

(** The dict comprehension over [enumerate(positions)]: one future per
    position, holding what the worker's call returns or raises.  The name
    [decoupled_evaluate] is bound only if the import ran; it is looked up when
    the first task is submitted.  [samples i] is the value drawn by task [i]. *)
Definition submit_all (decoupled_evaluate : option code) (samples : nat -> R)
    (positions : list (list R)) : result (list (result R)) :=
  match decoupled_evaluate, positions with
  | Some c, _ => Ok (imap (fun i pos => run_code c (samples i) pos) positions)
  | None, [] => Ok []
  | None, _ :: _ => Raise (NameError "decoupled_evaluate")
  end.

(** The loop over [as_completed(future_to_index)]; [completed] lists the
    indices of the futures in the order in which they complete.  A future that
    raised is logged and its entry left as it is. *)
Fixpoint collect (futures : list (result R)) (completed : list nat)
    (results : list cell) : list cell :=
  match completed with
  | [] => results
  | index :: rest =>
      match futures !! index with
      | Some (Ok v) => collect futures rest (<[index := Num v]> results)
      | _ => collect futures rest results
      end
  end.

(** The import inside the [try]: it runs only if the staged file exists, and
    loads the file that the module name [MDAF_benchmarks.tmp.decoupled_evaluate]
    resolves to on the import path, [module_file].  [Ok None] leaves the name
    [decoupled_evaluate] unbound. *)
Definition import_decoupled_evaluate (module_file : string) (fs : gmap string code)
    : result (option code) :=
  if decide (is_Some (fs !! DECOUPLED_FUNCTION_PATH)) then
    match fs !! module_file with
    | Some c => Ok (Some c)
    | None => Raise (ImportError "Failed to import the decoupled evaluate method")
    end
  else Ok None.

Definition decouple_failed : exn :=
  Exception "Failed to decouple the evaluate method".

(** [parallel_evaluate].  The [try] covers the staging and the import, and
    its handler removes the file and raises; the pool and the final removal
    of the file come after it, outside any handler. *)
Definition parallel_evaluate (module_file : string) (self : ObjectiveFunction)
    (positions : list (list R)) (max_workers : option Z) (samples : nat -> R)
    (completed : list nat) (fs : gmap string code)
    : gmap string code * result (list cell) :=
  match __decouple_evaluate self fs with
  | Raise e => (__delete_decoupled_evaluate fs, Raise decouple_failed)
  | Ok fs1 =>
      match import_decoupled_evaluate module_file fs1 with
      | Raise e => (__delete_decoupled_evaluate fs1, Raise decouple_failed)
      | Ok decoupled_evaluate =>
          match ProcessPoolExecutor max_workers with
          | Raise e => (fs1, Raise e)
          | Ok _ =>
              match submit_all decoupled_evaluate samples positions with
              | Raise e => (fs1, Raise e)
              | Ok futures =>
                  let results :=
                    collect futures completed (replicate (length positions) NaN) in
                  (__delete_decoupled_evaluate fs1, Ok results)
              end
          end
      end
  end.

(** The entry a task leaves in the results. *)
Definition cell_of (r : result R) : cell :=
  match r with Ok v => Num v | Raise _ => NaN end.


Definition noise_free (self : ObjectiveFunction) : Prop :=
  noise_mean self = s0 /\ noise_variance self = s0.

Definition shift_free (self : ObjectiveFunction) : Prop :=
  any (shift self) = false.

(** [max_workers] left at [None], or at least 1. *)
Definition valid_max_workers (max_workers : option Z) : Prop :=
  forall n, max_workers = Some n -> (1 <= n)%Z.

(** ** save and load *)

Section persistence.

(** [pickle]: the format of the file, and the two functions that write an
    object to it and read one back. *)
Variable artifact : Type.
Variable pickle_dumps : ObjectiveFunction -> result artifact.
Variable pickle_loads : artifact -> result ObjectiveFunction.

(** [save]: [open(path, "wb")] creates or empties the file, then
    [pickle.dump] fills it.  [None] is a file with nothing in it. *)
Definition save (self : ObjectiveFunction) (path : string)
    (disk : gmap string (option artifact)) : gmap string (option artifact) * result unit :=
  match pickle_dumps self with
  | Ok a => (<[path := Some a]> disk, Ok ())
  | Raise e => (<[path := None]> disk, Raise e)
  end.

Definition load (path : string) (disk : gmap string (option artifact))
    : result ObjectiveFunction :=
  match disk !! path with
  | None => Raise (FileNotFoundError path)
  | Some None => Raise (EOFError "Ran out of input")
  | Some (Some a) => pickle_loads a
  end.

End persistence.

(** ** Construction *)

Definition set_parameters (self : ObjectiveFunction) (params : gmap string R)
    : ObjectiveFunction :=
  {| ndim := ndim self;
     search_space_bounds := search_space_bounds self;
     optimal_solution_position := optimal_solution_position self;
     parameters := params;
     shift := shift self;
     noise_mean := noise_mean self;
     noise_variance := noise_variance self;
     nb_calls := nb_calls self;
     evaluate_method := evaluate_method self;
     evaluate_has_return := evaluate_has_return self |}.

(** The loop that ends [validate_parameters] and makes up [validate_settings]:
    for every name of [defaults], store under that name the given value if
    there is one and the default value otherwise.  The warning logged for a
    default that is used is not modelled. *)
Definition store_defaults {V} (given defaults target : gmap string V) : gmap string V :=
  map_fold (fun name default_value acc =>
              <[name := default default_value (given !! name)]> acc)
           target defaults.

(** [validate_parameters(parameters, default_params)]; the result is the
    instance with its [parameters] dictionary updated.  The message of the
    second error names the first offending parameter, which is left out. *)
Definition validate_parameters (self : ObjectiveFunction)
    (params default_params : gmap string R) : result ObjectiveFunction :=
  if decide (size default_params < size params) then
    Raise (ValueError "The number of parameters exceeds the number of default parameters.")
  else if decide (map_Forall (fun name _ => is_Some (default_params !! name)) params) then
    Ok (set_parameters self (store_defaults params default_params (parameters self)))
  else Raise (ValueError "is not a valid parameter.").

(** [validate_settings(settings, default_settings)] on the attribute
    dictionary of the instance ([self.__dict__]); [default_settings] is read
    as a mapping from names to values. *)
Definition validate_settings {V} (attributes settings default_settings : gmap string V)
    : gmap string V :=
  store_defaults settings default_settings attributes.

(** [np.any(self.optimal_solution_position)]: some entry of some optimal
    point is not zero; [np.any(None)] is falsy. *)
Definition np_any (optimum : option (list (list R))) : bool :=
  match optimum with
  | None => false
  | Some rows => existsb any rows
  end.

(** [len(self.optimal_solution_position[0])] for an array of points,
    [len(self.optimal_solution_position)] for a single point (one row). *)
Definition optimal_solution_dim (optimum : option (list (list R))) : nat :=
  match optimum with
  | Some (row :: _) => length row
  | _ => 0
  end.

(** [ObjectiveFunction.__init__], run once the subclass has set [ndim], the
    bounds (a sequence of pairs), the optimal points, the parameters and its
    [evaluate] method.  The derivative callables are left out. *)
Definition __init__ (n : nat) (bounds : list (R * R))
    (optimum : option (list (list R))) (params : gmap string R)
    (method : gmap string R -> list R -> result R) (has_return : bool)
    : result ObjectiveFunction :=
  let self :=
    {| ndim := n;
       search_space_bounds := Some bounds;
       optimal_solution_position := optimum;
       parameters := params;
       shift := zeros n;
       noise_mean := s0;
       noise_variance := s0;
       nb_calls := 0;
       evaluate_method := method;
       evaluate_has_return := has_return |} in
  if np_any optimum then
    if decide (optimal_solution_dim optimum ≠ n) then
      Raise (ValueError "The size of the optimal position must match the dimensionality.")
    else if decide (length bounds ≠ n) then
      Raise (ValueError "The size of the search space bounds must match the dimensionality of the objective function.")
    else Ok self
  else Ok self.

(** Successive calls [self.__evaluate(position)] on one instance, each with
    the samples it draws. *)
Fixpoint evaluate_each (self : ObjectiveFunction)
    (calls : list ((nat -> R) * list R))
    : ObjectiveFunction * list (result (list R)) :=
  match calls with
  | [] => (self, [])
  | (noise, position) :: rest =>
      let (self1, value) := __evaluate noise self position in
      let (self2, values) := evaluate_each self1 rest in
      (self2, value :: values)
  end.

(** ** The instance as pickle sees it *)

(** A value kept in an attribute, as far as [pickle] is concerned: data that
    it can write, or a function defined inside another function, which it
    refuses. *)
Inductive attribute :=
| Data
| LocalFunction.

(** The attributes that [__init__] sets besides the state kept in the record:
    [self.first_derivative = grad(self.__evaluate)] and
    [self.second_derivative = hessian(self.__evaluate)].  autograd's [grad]
    and [hessian] return a function defined inside their wrapper. *)
Definition derivative_attributes : list (string * attribute) :=
  [("first_derivative", LocalFunction); ("second_derivative", LocalFunction)].

Definition picklable (a : attribute) : bool :=
  match a with
  | Data => true
  | LocalFunction => false
  end.

(** [pickle.dumps(self)] for an instance that [__init__] has set up: every
    attribute has to be written, and a local function raises (AttributeError
    "Can't pickle local object"; PicklingError in recent versions of Python). *)
Definition pickle_dumps_instance (self : ObjectiveFunction) : result ObjectiveFunction :=
  if forallb (fun entry => picklable entry.2) derivative_attributes
  then Ok self
  else Raise (AttributeError "Can't pickle local object").

End objective_function.

Arguments ObjectiveFunction R : clear implicits.
Arguments code R : clear implicits.
Arguments cell R : clear implicits.
Arguments save {R artifact} pickle_dumps self path disk.
Arguments load {R artifact} pickle_loads path disk.

(** ** The layout of the repository *)

(** The file that [from MDAF_benchmarks.tmp.decoupled_evaluate import evaluate]
    loads, when the package [MDAF_benchmarks] is found under the directory
    [root] of the import path (written with its closing slash). *)
Definition decoupled_module_file (root : string) : string :=
  root +:+ "MDAF_benchmarks/tmp/decoupled_evaluate.py".

(** ** Concrete benchmarks over the integers *)

(** [return np.sum(position ** 2)]. *)
Definition sphere_formula (_ : gmap string Z) (position : list Z) : result Z :=
  Ok (foldr Z.add 0%Z (map (fun v => (v * v)%Z) position)).

(** The sphere function in [n] dimensions, as its constructor leaves it:
    bounds (-5, 5) in every dimension, optimum at the origin, no shift, no
    noise, no call counted. *)
Definition sphere (n : nat) : ObjectiveFunction Z :=
  {| ndim := n;
     search_space_bounds := Some (replicate n ((-5)%Z, 5%Z));
     optimal_solution_position := Some [zeros n];
     parameters := ∅;
     shift := zeros n;
     noise_mean := 0%Z;
     noise_variance := 0%Z;
     nb_calls := 0;
     evaluate_method := sphere_formula;
     evaluate_has_return := true |}.

(** A formula with a restricted domain: [return 12 // position[0]], which
    raises on a zero (and on an empty position). *)
Definition quotient_formula (_ : gmap string Z) (position : list Z) : result Z :=
  match position with
  | x :: _ =>
      if (x =? 0)%Z then Raise (FormulaError "ZeroDivisionError")
      else Ok (12 / x)%Z
  | [] => Raise (FormulaError "IndexError")
  end.

Definition quotient : ObjectiveFunction Z :=
  {| ndim := 1;
     search_space_bounds := Some [((-5)%Z, 5%Z)];
     optimal_solution_position := None;
     parameters := ∅;
     shift := zeros 1;
     noise_mean := 0%Z;
     noise_variance := 0%Z;
     nb_calls := 0;
     evaluate_method := quotient_formula;
     evaluate_has_return := true |}.

(** [pickle] for the examples: the artifact is the object's state. *)
Definition state_dumps (self : ObjectiveFunction Z) : result (ObjectiveFunction Z) :=
  Ok self.
Definition state_loads (a : ObjectiveFunction Z) : result (ObjectiveFunction Z) :=
  Ok a.

(** * Properties *)

Section properties.
Context {R : Type} `{Scalar R}.
Add Ring scalar_ring_properties : s_ring.

(** ** Arrays *)

Lemma truthy_zero : truthy (s0 : R) = false.
Proof. unfold truthy. apply bool_decide_eq_false. intros Hne. by apply Hne. Qed.

Lemma vsub_same_length (p s : list R) :
  length p = length s -> vsub p s = Ok (zip_with ssub p s).
Proof. intros Hlen. unfold vsub, broadcast2. by rewrite decide_True. Qed.

Lemma vsub_mismatch (p s : list R) :
  length p ≠ length s -> length p ≠ 1 -> length s ≠ 1 ->
  vsub p s = Raise broadcast_error.
Proof.
  intros Hne Hp Hs. unfold vsub, broadcast2. rewrite decide_False by done.
  destruct p as [|x [|x' p]], s as [|y [|y' s]]; simpl in *; congruence.
Qed.

Lemma zip_sub_zeros (p : list R) n :
  length p = n -> zip_with ssub p (zeros n) = p.
Proof.
  intros <-. induction p as [|x p IH]; simpl; [done|].
  f_equal; [ring | exact IH].
Qed.

Lemma length_randn (noise : nat -> R) n : length (randn noise n) = n.
Proof. unfold randn. by rewrite length_map, length_seq. Qed.

(** With variance zero every entry of the noisy sum is the same number. *)
Lemma noise_variance_zero (v m : R) (noise : nat -> R) n :
  map (fun r => sadd (sadd v m) (smul r s0)) (randn noise n) = replicate n (sadd v m).
Proof.
  unfold randn. generalize 0 as start.
  induction n as [|n IH]; intros start; simpl; [done|].
  f_equal; [ring | apply IH].
Qed.

(** ** The wrapped evaluator *)

Lemma evaluate_set_nb_calls (self : ObjectiveFunction R) n (q : list R) :
  evaluate (set_nb_calls self n) q = evaluate self q.
Proof. reflexivity. Qed.

(** What [__evaluate] returns when the variance is zero: one copy of
    [evaluate(position - shift) + mean] per entry of the position. *)
Lemma evaluate_body_variance_zero (self : ObjectiveFunction R) noise (p q : list R) v :
  noise_variance self = s0 ->
  vsub p (shift self) = Ok q ->
  evaluate self q = Ok v ->
  evaluate_body noise self p = Ok (replicate (length p) (sadd v (noise_mean self))).
Proof.
  intros Hvar Hsub Hev. unfold evaluate_body.
  rewrite Hsub. simpl. rewrite Hev. simpl. rewrite Hvar.
  unfold mret, result_ret. f_equal. apply noise_variance_zero.
Qed.

Lemma evaluate_body_formula_raises (self : ObjectiveFunction R) noise (p q : list R) e :
  vsub p (shift self) = Ok q ->
  evaluate self q = Raise e ->
  evaluate_body noise self p = Raise e.
Proof.
  intros Hsub Hev. unfold evaluate_body. rewrite Hsub. simpl. by rewrite Hev.
Qed.

Lemma apply_shift_fields (self self' : ObjectiveFunction R) (s : list R) :
  apply_shift self s = Ok self' ->
  shift self' = s /\ parameters self' = parameters self /\
  evaluate_method self' = evaluate_method self /\
  noise_mean self' = noise_mean self /\ noise_variance self' = noise_variance self /\
  nb_calls self' = nb_calls self /\ ndim self' = ndim self.
Proof.
  unfold apply_shift. destruct (optimal_solution_position self) as [rows|].
  - destruct (mapM (fun row => iadd row s) rows) as [rows'|e]; simpl; [|done].
    intros [= <-]. by repeat split.
  - intros [= <-]. by repeat split.
Qed.

(** C6.  In the noise-free case, evaluating at [p] after [apply_shift(s)] gives
    the same value as evaluating the unshifted function (shift
    [np.zeros(ndim)], as the constructor leaves it) at the difference [p - s],
    taken entry by entry, for every position [p] and shift [s] of length
    [ndim]: both are one copy of [evaluate(p - s)] per entry of [p], and a
    formula that raises raises the same exception on both sides. *)
Theorem apply_shift_evaluates_unshifted_at_difference
    (self self' : ObjectiveFunction R) (p s : list R) (noise noise' : nat -> R) :
  noise_free self ->
  shift self = zeros (ndim self) ->
  length p = ndim self ->
  length s = ndim self ->
  apply_shift self s = Ok self' ->
  (__evaluate noise self' p).2 = (__evaluate noise' self (zip_with ssub p s)).2 /\
  (__evaluate noise self' p).2 =
    (v ← evaluate self (zip_with ssub p s); mret (replicate (length p) v)).
Proof.
  intros [Hmean Hvar] Hzero Hp Hs Happ.
  apply apply_shift_fields in Happ as (Hsh & Hpar & Hev & Hm & Hv & _ & _).
  assert (Hq : length (zip_with ssub p s) = ndim self)
    by (rewrite length_zip_with; lia).
  unfold __evaluate, count_calls. simpl.
  set (a := set_nb_calls self' _). set (b := set_nb_calls self _).
  assert (Ha : vsub p (shift a) = Ok (zip_with ssub p s)).
  { subst a. simpl. rewrite Hsh. apply vsub_same_length. congruence. }
  assert (Hb : vsub (zip_with ssub p s) (shift b) = Ok (zip_with ssub p s)).
  { subst b. simpl. rewrite Hzero, vsub_same_length.
    - by rewrite zip_sub_zeros.
    - unfold zeros. by rewrite length_replicate. }
  assert (Hsame : evaluate a (zip_with ssub p s) = evaluate self (zip_with ssub p s)).
  { subst a. unfold evaluate. simpl. by rewrite Hev, Hpar. }
  assert (Hsameb : evaluate b (zip_with ssub p s) = evaluate self (zip_with ssub p s))
    by done.
  destruct (evaluate self (zip_with ssub p s)) as [v|e] eqn:Hevs.
  - rewrite (evaluate_body_variance_zero a noise p _ v (eq_trans Hv Hvar) Ha Hsame).
    rewrite (evaluate_body_variance_zero b noise' _ _ v Hvar Hb Hsameb).
    assert (Hv0 : sadd v s0 = v) by ring.
    subst a b. simpl. rewrite Hm, Hmean, Hv0, Hq, Hp. done.
  - rewrite (evaluate_body_formula_raises a noise p _ e Ha Hsame).
    by rewrite (evaluate_body_formula_raises b noise' _ _ e Hb Hsameb).
Qed.

(** C8, as the code has it.  The wrapped evaluator has no check of the
    position's length against [ndim].  When the shift has [ndim] entries,
    [ndim] is not 1, and the position's length is neither [ndim] nor 1, the
    subtraction [position - self.shift] raises NumPy's ValueError, and
    [__evaluate] lets it through to its caller. *)
Theorem evaluate_length_mismatch_raises
    (self : ObjectiveFunction R) (position : list R) (noise : nat -> R) :
  length (shift self) = ndim self ->
  ndim self ≠ 1 ->
  length position ≠ ndim self ->
  length position ≠ 1 ->
  (__evaluate noise self position).2 = Raise broadcast_error.
Proof.
  intros Hsh Hn Hp Hp1. unfold __evaluate, count_calls, evaluate_body. simpl.
  rewrite vsub_mismatch; [done|congruence|done|congruence].
Qed.

(** ** check_constraints *)

(** The comparison that [check_constraints] is written to return: for a
    position with one entry per row of bounds it is [True] exactly when some
    coordinate is below its low bound or above its high bound. *)
Lemma outside_bounds_spec (rows : list (R * R)) (position : list R) :
  length position = length rows ->
  exists b, outside_bounds rows position = Ok b /\
    (b = true <->
     exists i x lo hi, position !! i = Some x /\ rows !! i = Some (lo, hi) /\
                       (sltb x lo = true \/ sltb hi x = true)).
Proof.
  intros Hlen. unfold outside_bounds, broadcast2.
  rewrite !decide_True by (by rewrite length_map). simpl.
  eexists. split; [reflexivity|].
  induction position as [|x p IH] in rows, Hlen |- *;
    destruct rows as [|[lo hi] rows]; simplify_eq/=.
  - split; [done|]. by intros ([|i] & ? & ? & ? & ? & _).
  - unfold id at 1. rewrite !orb_true_iff, (IH rows) by done. split.
    + intros [Hhere|(i & y & l & h & Hp & Hr & Hout)].
      * exists 0, x, lo, hi. by repeat split.
      * exists (S i), y, l, h. by repeat split.
    + intros ([|i] & y & l & h & Hp & Hr & Hout); simplify_eq/=.
      * by left.
      * right. by exists i, y, l, h.
Qed.

(** C10, at the code.  [check_constraints] never returns a boolean: without
    bounds it raises the ValueError of its guard, and with bounds the guard
    [not self.search_space_bounds] itself raises ValueError, because the
    bounds are an array with more than one element.  The comparison of
    [outside_bounds_spec] is not reached. *)
Theorem check_constraints_always_raises
    (self : ObjectiveFunction R) (position : list R) :
  exists msg, check_constraints self position = Raise (ValueError msg).
Proof.
  unfold check_constraints.
  destruct (search_space_bounds self) as [[|row rows]|]; simpl; eauto.
Qed.

(** ** The decoupled function *)

Lemma decouple_plain (self : ObjectiveFunction R) :
  noise_free self -> shift_free self ->
  __decouple_shift_noise self (evaluate_source self) = Ok (evaluate_source self).
Proof.
  intros [Hm Hv] Hs. unfold __decouple_shift_noise, shift_free in *.
  by rewrite Hs, Hm, Hv, truthy_zero.
Qed.

Lemma run_plain (self : ObjectiveFunction R) sample (p : list R) :
  run_code (evaluate_source self) sample p = evaluate self p.
Proof.
  unfold run_code, evaluate. simpl.
  by destruct (evaluate_method self (parameters self) p).
Qed.

(** With a shift and no noise, the function handed to the workers evaluates
    the formula at [position + shift]. *)
Lemma worker_side_adds_shift (self : ObjectiveFunction R) (c : code R) sample (p : list R) :
  noise_free self ->
  any (shift self) = true ->
  __decouple_shift_noise self (evaluate_source self) = Ok c ->
  run_code c sample p = (q ← iadd p (shift self); evaluate self q).
Proof.
  intros [Hm Hv] Hs. unfold __decouple_shift_noise.
  rewrite Hs, Hm, Hv, truthy_zero. simpl. intros [= <-].
  unfold run_code, evaluate. simpl.
  destruct (iadd p (shift self)) as [q|e]; simpl; [|done].
  by destruct (evaluate_method self (parameters self) q).
Qed.

(** ** Collecting the results *)

Lemma length_collect (futures : list (result R)) completed (results : list (cell R)) :
  length (collect futures completed results) = length results.
Proof.
  induction completed as [|index rest IH] in results |- *; simpl; [done|].
  destruct (futures !! index) as [[v|e]|]; rewrite IH; [|done..].
  apply length_insert.
Qed.

(** An entry of the results after the loop: the value of its future if that
    future completed with a value, and what it held before otherwise. *)
Lemma collect_lookup (futures : list (result R)) completed (results : list (cell R)) i :
  i < length results ->
  collect futures completed results !! i =
    match futures !! i with
    | Some (Ok v) => if decide (i ∈ completed) then Some (Num v) else results !! i
    | _ => results !! i
    end.
Proof.
  induction completed as [|index rest IH] in results |- *; intros Hi; cbn [collect].
  - destruct (futures !! i) as [[v|e]|]; [|done..].
    rewrite decide_False; [done|]. apply not_elem_of_nil.
  - destruct (futures !! index) as [[v|e]|] eqn:Hindex.
    + rewrite IH by (by rewrite length_insert).
      destruct (decide (i = index)) as [->|Hne].
      * rewrite Hindex, list_lookup_insert_eq by done.
        rewrite (decide_True (P := index ∈ index :: rest)) by left.
        by destruct (decide (index ∈ rest)).
      * rewrite list_lookup_insert_ne by done.
        destruct (futures !! i) as [[w|e]|]; [|done..].
        destruct (decide (i ∈ rest)) as [Hin|Hnin].
        -- rewrite decide_True; [done|]. by right.
        -- rewrite decide_False; [done|]. rewrite elem_of_cons. by intros [?|?].
    + rewrite IH by done.
      destruct (futures !! i) as [[w|e']|] eqn:Hfi; [|done..].
      destruct (decide (i ∈ rest)) as [Hin|Hnin].
      * rewrite decide_True; [done|]. by right.
      * rewrite decide_False; [done|]. rewrite elem_of_cons.
        intros [->|?]; [congruence|done].
    + rewrite IH by done.
      destruct (futures !! i) as [[w|e']|] eqn:Hfi; [|done..].
      destruct (decide (i ∈ rest)) as [Hin|Hnin].
      * rewrite decide_True; [done|]. by right.
      * rewrite decide_False; [done|]. rewrite elem_of_cons.
        intros [->|?]; [congruence|done].
Qed.

(** Once every future has completed, in whatever order, entry [i] of the
    results is what task [i] left. *)
Lemma collect_all (futures : list (result R)) completed :
  completed ≡ₚ seq 0 (length futures) ->
  collect futures completed (replicate (length futures) NaN) = map cell_of futures.
Proof.
  intros Hperm. apply list_eq. intros i.
  destruct (decide (i < length futures)) as [Hi|Hi].
  - rewrite collect_lookup by (by rewrite length_replicate).
    rewrite list_lookup_fmap, lookup_replicate_2 by done.
    destruct (lookup_lt_is_Some_2 futures i Hi) as [r Hr]. rewrite Hr.
    destruct r as [v|e]; simpl; [|done].
    rewrite decide_True; [done|]. rewrite Hperm, elem_of_seq. lia.
  - rewrite !lookup_ge_None_2; [done| |].
    + rewrite length_map. lia.
    + rewrite length_collect, length_replicate. lia.
Qed.




(** ** parallel_evaluate *)

Lemma pool_accepts (max_workers : option Z) :
  valid_max_workers max_workers -> ProcessPoolExecutor max_workers = Ok ().
Proof.
  intros Hvalid. unfold ProcessPoolExecutor. destruct max_workers as [n|]; [|done].
  specialize (Hvalid n eq_refl). by rewrite (proj2 (Z.leb_gt n 0)) by lia.
Qed.

Lemma pool_rejects n :
  (n < 1)%Z ->
  ProcessPoolExecutor (Some n) = Raise (ValueError "max_workers must be greater than 0").
Proof.
  intros Hn. unfold ProcessPoolExecutor. by rewrite (proj2 (Z.leb_le n 0)) by lia.
Qed.

Lemma delete_decoupled_evaluate_spec (fs : gmap string (code R)) :
  __delete_decoupled_evaluate fs = delete DECOUPLED_FUNCTION_PATH fs.
Proof.
  unfold __delete_decoupled_evaluate. case_decide as Hex; [done|].
  symmetry. apply delete_id. by apply eq_None_not_Some.
Qed.





(** C4, as the code has it.  Every call stages its file under the one path
    [DECOUPLED_FUNCTION_PATH], whatever the instance.  When [max_workers] is
    left unset or is at least 1, the file system after the call is the one
    before it without that path: the staged file is gone on every way out of
    the call (results returned, with or without failed tasks; staging failed;
    import failed), and so is a stale one found at the start. *)
Theorem staging_path_fixed_and_file_removed
    (module_file : string) (self : ObjectiveFunction R) (positions : list (list R))
    (max_workers : option Z) (samples : nat -> R) (completed : list nat)
    (fs : gmap string (code R)) :
  valid_max_workers max_workers ->
  (forall fs1, __decouple_evaluate self fs = Ok fs1 ->
               dom fs1 = {[DECOUPLED_FUNCTION_PATH]} ∪ dom fs) /\
  (parallel_evaluate module_file self positions max_workers samples completed fs).1
    = delete DECOUPLED_FUNCTION_PATH fs /\
  (parallel_evaluate module_file self positions max_workers samples completed fs).1
    !! DECOUPLED_FUNCTION_PATH = None.
Proof.
  intros Hpool.
  assert (Hfs : (parallel_evaluate module_file self positions max_workers samples
                   completed fs).1 = delete DECOUPLED_FUNCTION_PATH fs).
  { unfold parallel_evaluate, __decouple_evaluate.
    destruct (__decouple_shift_noise self (evaluate_source self)) as [c|e]; simpl;
      [|apply delete_decoupled_evaluate_spec].
    unfold import_decoupled_evaluate. rewrite lookup_insert_eq.
    rewrite decide_True by (by eexists).
    destruct (_ !! module_file) as [c'|]; simpl.
    - rewrite (pool_accepts _ Hpool). simpl.
      by rewrite delete_decoupled_evaluate_spec, delete_insert_eq.
    - by rewrite delete_decoupled_evaluate_spec, delete_insert_eq. }
  split; [|split].
  - intros fs1. unfold __decouple_evaluate.
    destruct (__decouple_shift_noise self (evaluate_source self)) as [c|e]; simpl; [|done].
    intros [= <-]. apply dom_insert_L.
  - exact Hfs.
  - rewrite Hfs. apply lookup_delete_eq.
Qed.

Lemma import_after_staging (module_file : string) (c : code R)
    (fs : gmap string (code R)) :
  import_decoupled_evaluate module_file (<[DECOUPLED_FUNCTION_PATH := c]> fs) =
    match <[DECOUPLED_FUNCTION_PATH := c]> fs !! module_file with
    | Some c' => Ok (Some c')
    | None => Raise (ImportError "Failed to import the decoupled evaluate method")
    end.
Proof.
  unfold import_decoupled_evaluate. rewrite decide_True; [done|].
  rewrite lookup_insert_eq. by eexists.
Qed.

(** C5, as the code has it.  [parallel_evaluate] checks nothing about
    [positions]: whether the call raises, and with which exception, is the
    same for any two sequences of positions (the empty one and one with
    positions of the wrong length included), and when the call returns there
    is one result per position.  It returns only when [max_workers] is unset
    or at least 1: with a [max_workers] below 1 it raises, the ValueError of
    the pool's constructor once staging and import are done, and "Failed to
    decouple the evaluate method" if one of those fails first. *)
Theorem parallel_evaluate_input_checks
    (module_file : string) (self : ObjectiveFunction R)
    (positions positions' : list (list R)) (max_workers : option Z)
    (samples : nat -> R) (completed completed' : list nat)
    (fs : gmap string (code R)) :
  (forall e,
     (parallel_evaluate module_file self positions max_workers samples completed fs).2
       = Raise e ->
     (parallel_evaluate module_file self positions' max_workers samples completed' fs).2
       = Raise e) /\
  (forall results,
     (parallel_evaluate module_file self positions max_workers samples completed fs).2
       = Ok results ->
     length results = length positions /\ valid_max_workers max_workers) /\
  (forall n, max_workers = Some n -> (n < 1)%Z ->
     (parallel_evaluate module_file self positions max_workers samples completed fs).2
       = Raise decouple_failed \/
     (parallel_evaluate module_file self positions max_workers samples completed fs).2
       = Raise (ValueError "max_workers must be greater than 0")).
Proof.
  unfold parallel_evaluate, __decouple_evaluate.
  destruct (__decouple_shift_noise self (evaluate_source self)) as [c|e0]; simpl.
  2: { split; [done|]. split; [done|]. intros n _ _. by left. }
  rewrite import_after_staging.
  destruct (<[DECOUPLED_FUNCTION_PATH := c]> fs !! module_file) as [c'|]; simpl.
  2: { split; [done|]. split; [done|]. intros n _ _. by left. }
  destruct max_workers as [n|]; simpl.
  - destruct (n <=? 0)%Z eqn:Hn; simpl.
    + split; [done|]. split; [done|]. intros ? _ _. by right.
    + apply Z.leb_gt in Hn. split; [done|]. split.
      * intros results [= <-]. split.
        -- by rewrite length_collect, length_replicate.
        -- intros m [= <-]. lia.
      * intros m [= <-] Hm. lia.
  - split; [done|]. split; [|done].
    intros results [= <-]. split.
    + by rewrite length_collect, length_replicate.
    + by intros m.
Qed.

End properties.

(** ** save and load *)

Section persistence_properties.
Context {R : Type}.

(** C9, at the code.  [save] on an instance that the constructor has set up
    raises, because [pickle.dump] meets the derivative attributes; the file
    it opened is left empty, so [load] at that path raises EOFError, whatever
    was stored there before.  No instance comes back to be evaluated. *)
Theorem save_refuses_constructed_instance
    (self : ObjectiveFunction R) (path : string)
    (disk : gmap string (option (ObjectiveFunction R)))
    (pickle_loads : ObjectiveFunction R -> result (ObjectiveFunction R)) :
  (save pickle_dumps_instance self path disk).2
    = Raise (AttributeError "Can't pickle local object") /\
  (save pickle_dumps_instance self path disk).1 !! path = Some None /\
  load pickle_loads path (save pickle_dumps_instance self path disk).1
    = Raise (EOFError "Ran out of input").
Proof.
  unfold save, load, pickle_dumps_instance. simpl.
  by rewrite lookup_insert_eq.
Qed.

End persistence_properties.

(** * The code on concrete inputs *)

Lemma append_length (a b : string) :
  String.length (a +:+ b) = String.length a + String.length b.
Proof. induction a as [|x a IH]; simpl; [done|]. by rewrite IH. Qed.

(** The staged file is never the file of the imported module, whatever
    directory the package is found under. *)
Lemma module_file_is_not_staged_file (root : string) :
  decoupled_module_file root ≠ DECOUPLED_FUNCTION_PATH.
Proof.
  unfold decoupled_module_file, DECOUPLED_FUNCTION_PATH. intros Heq.
  assert (Hlen : String.length root = 10).
  { apply (f_equal String.length) in Heq. rewrite append_length in Heq.
    simpl in Heq. lia. }
  do 10 (destruct root as [|? root]; [discriminate Hlen|]).
  destruct root; [|discriminate Hlen].
  simpl in Heq. discriminate Heq.
Qed.

(** C1, at the code.  The sphere function in two dimensions at the positions
    (0, 0), (1, 1), (2, 2), whose serial values are 0, 2 and 8, with nothing
    but the call's own file on disk.  The call stages its file at
    [DECOUPLED_FUNCTION_PATH], under [src/objective_functions/tmp], and then
    imports the module [MDAF_benchmarks.tmp.decoupled_evaluate], which is
    another file wherever the package lies; the import fails, and the call
    raises "Failed to decouple the evaluate method" instead of returning the
    three values, for every order of completion. *)
Theorem parallel_evaluate_imports_another_file :
  map (__call__ (sphere 2)) [[0; 0]; [1; 1]; [2; 2]]%Z = [Ok 0%Z; Ok 2%Z; Ok 8%Z] /\
  (forall root, decoupled_module_file root ≠ DECOUPLED_FUNCTION_PATH) /\
  (forall root samples completed,
     parallel_evaluate (decoupled_module_file root) (sphere 2)
       [[0; 0]; [1; 1]; [2; 2]]%Z None samples completed ∅
     = (∅, Raise decouple_failed)).
Proof.
  split; [reflexivity|]. split; [exact module_file_is_not_staged_file|].
  intros root samples completed.
  unfold parallel_evaluate, __decouple_evaluate.
  rewrite (decouple_plain (sphere 2)) by (by split). simpl.
  unfold import_decoupled_evaluate.
  rewrite lookup_insert_eq, decide_True by (by eexists).
  rewrite lookup_insert_ne by (intros Heq; by apply (module_file_is_not_staged_file root)).
  rewrite lookup_empty, delete_decoupled_evaluate_spec, delete_insert_eq.
  by rewrite delete_empty.
Qed.

(** The scenario of the sphere function in two dimensions, in a layout where
    the import loads the staged file: the three positions give 0, 2 and 8,
    here with the tasks completing out of order. *)
Example sphere_parallel_scenario :
  (parallel_evaluate DECOUPLED_FUNCTION_PATH (sphere 2)
     [[0; 0]; [1; 1]; [2; 2]]%Z None (fun _ => 0%Z) [2; 0; 1] ∅).2
  = Ok [Num 0%Z; Num 2%Z; Num 8%Z].
Proof. vm_compute. reflexivity. Qed.

(** C3, at the code.  The sphere function in one dimension with shift [1],
    at the position [1]: the function handed to the workers adds the shift
    and returns 4 = (1 + 1)^2, while [__evaluate] on the instance subtracts it
    and returns 0 = (1 - 1)^2 (in a one-entry array). *)
Theorem worker_side_shift_has_opposite_sign :
  let self := set_shift (sphere 1) [1%Z] in
  (forall sample,
     (c ← __decouple_shift_noise self (evaluate_source self);
      run_code c sample [1%Z]) = Ok 4%Z) /\
  (forall samples,
     (parallel_evaluate DECOUPLED_FUNCTION_PATH self [[1%Z]] None samples [0] ∅).2
     = Ok [Num 4%Z]) /\
  (forall noise, (__evaluate noise self [1%Z]).2 = Ok [0%Z]).
Proof.
  intros self. split; [|split].
  - intros sample. reflexivity.
  - intros samples. vm_compute. reflexivity.
  - intros noise. unfold __evaluate, count_calls. simpl.
    by rewrite (evaluate_body_variance_zero _ noise [1%Z] [0%Z] 0%Z).
Qed.

(** C7, at the code.  The sphere function in two dimensions with noise mean 5
    and variance 0, at the position (1, 2): the formula gives 5, so the claimed
    value is the number 10; [__evaluate] returns an array with two entries,
    one per coordinate of the position, each of them 10.  The array is the
    same for every stream of samples. *)
Theorem evaluate_with_mean_returns_array :
  let self := apply_noise (sphere 2) 5%Z 0%Z in
  evaluate self [1; 2]%Z = Ok 5%Z /\
  (forall noise, (__evaluate noise self [1; 2]%Z).2 = Ok [10; 10]%Z).
Proof.
  intros self. split; [reflexivity|].
  intros noise. unfold __evaluate, count_calls. simpl.
  by rewrite (evaluate_body_variance_zero _ noise [1; 2]%Z [1; 2]%Z 5%Z).
Qed.

(** C10 on the sphere function with its bounds (-5, 5) x (-5, 5), at the
    origin, which lies within them. *)
Example check_constraints_sphere_origin :
  check_constraints (sphere 2) [0; 0]%Z
  = Raise (ValueError "The truth value of an array with more than one element is ambiguous").
Proof. reflexivity. Qed.

(** A pool that refuses [max_workers] raises after the file has been staged
    and outside the [try]: the file stays. *)
Example refused_pool_leaves_staged_file :
  let out := parallel_evaluate DECOUPLED_FUNCTION_PATH (sphere 2) [[1; 1]]%Z (Some 0%Z)
               (fun _ => 0%Z) [0] ∅ in
  out.2 = Raise (ValueError "max_workers must be greater than 0") /\
  is_Some (out.1 !! DECOUPLED_FUNCTION_PATH).
Proof. split; [by vm_compute|]. by eexists. Qed.

(** ** Counterexamples to the claims as they are written *)

(** C4.  Two calls on different instances stage under the same path, and a
    second staging that happens while the first call is still running
    replaces the first call's file: the file then computes the second
    instance's function (4 at the position [1], where the first gives 1). *)
Lemma staging_path_is_shared :
  let first := sphere 1 in
  let second := set_shift (sphere 1) [1%Z] in
  exists fs1 fs2 fs12 c,
    __decouple_evaluate first ∅ = Ok fs1 /\
    __decouple_evaluate second ∅ = Ok fs2 /\
    dom fs1 = {[DECOUPLED_FUNCTION_PATH]} /\
    dom fs2 = {[DECOUPLED_FUNCTION_PATH]} /\
    __decouple_evaluate second fs1 = Ok fs12 /\
    fs12 !! DECOUPLED_FUNCTION_PATH = Some c /\
    evaluate first [1%Z] = Ok 1%Z /\
    run_code c 0%Z [1%Z] = Ok 4%Z.
Proof.
  intros first second.
  set (c1 := evaluate_source first).
  set (c2 := {| code_shift := Some [1%Z];
                code_body := sphere_formula ∅;
                code_has_return := true;
                code_noise := None |}).
  exists (<[DECOUPLED_FUNCTION_PATH := c1]> ∅), (<[DECOUPLED_FUNCTION_PATH := c2]> ∅),
         (<[DECOUPLED_FUNCTION_PATH := c2]> (<[DECOUPLED_FUNCTION_PATH := c1]> ∅)), c2.
  by repeat split.
Qed.

(** C5.  Where the import loads the staged file, an empty sequence of
    positions is accepted and gives an empty results array, and a position
    with one entry, for a function of two dimensions, is dispatched and
    evaluated.  Where the import loads the module's own file and fails, the
    empty sequence is refused, but so is a proper one, with the same
    exception: nothing looks at the positions. *)
Lemma parallel_evaluate_accepts_empty_and_short :
  (parallel_evaluate DECOUPLED_FUNCTION_PATH (sphere 2) [] None (fun _ => 0%Z) [] ∅).2
    = Ok [] /\
  length [3%Z] ≠ ndim (sphere 2) /\
  (parallel_evaluate DECOUPLED_FUNCTION_PATH (sphere 2) [[3%Z]] None (fun _ => 0%Z) [0] ∅).2
    = Ok [Num 9%Z] /\
  (forall root,
     (parallel_evaluate (decoupled_module_file root) (sphere 2) [] None
        (fun _ => 0%Z) [] ∅).2 = Raise decouple_failed /\
     (parallel_evaluate (decoupled_module_file root) (sphere 2) [[1; 1]%Z] None
        (fun _ => 0%Z) [0] ∅).2 = Raise decouple_failed).
Proof.
  split; [|split; [|split]]; [by vm_compute|by simpl|by vm_compute|].
  intros root.
  assert (Hraise : forall positions completed,
    (parallel_evaluate (decoupled_module_file root) (sphere 2) positions None
       (fun _ => 0%Z) completed ∅).2 = Raise decouple_failed).
  { intros positions completed. unfold parallel_evaluate, __decouple_evaluate.
    rewrite (decouple_plain (sphere 2)) by (by split). simpl.
    unfold import_decoupled_evaluate.
    rewrite lookup_insert_eq, decide_True by (by eexists).
    rewrite lookup_insert_ne
      by (intros Heq; by apply (module_file_is_not_staged_file root)).
    by rewrite lookup_empty. }
  split; apply Hraise.
Qed.

(** C8.  A position with one entry, for the sphere function in two
    dimensions: the subtraction of the shift stretches it to (3, 3), and
    [__evaluate] returns 18 without any error. *)
Lemma evaluate_accepts_short_position :
  length [3%Z] ≠ ndim (sphere 2) /\
  (forall noise, (__evaluate noise (sphere 2) [3%Z]).2 = Ok [18%Z]).
Proof.
  split; [by simpl|].
  intros noise. unfold __evaluate, count_calls. simpl.
  by rewrite (evaluate_body_variance_zero _ noise [3%Z] [3; 3]%Z 18%Z).
Qed.

(** ** The theorems at concrete inputs *)


Lemma staging_path_fixed_and_file_removed_witness :
  (forall fs1, __decouple_evaluate (sphere 2) ∅ = Ok fs1 ->
               dom fs1 = {[DECOUPLED_FUNCTION_PATH]} ∪ dom (∅ : gmap string (code Z))) /\
  (parallel_evaluate DECOUPLED_FUNCTION_PATH (sphere 2) [[1; 1]]%Z None
     (fun _ => 0%Z) [0] ∅).1 = delete DECOUPLED_FUNCTION_PATH ∅ /\
  (parallel_evaluate DECOUPLED_FUNCTION_PATH (sphere 2) [[1; 1]]%Z None
     (fun _ => 0%Z) [0] ∅).1 !! DECOUPLED_FUNCTION_PATH = None.
Proof.
  apply (staging_path_fixed_and_file_removed DECOUPLED_FUNCTION_PATH (sphere 2)
           [[1; 1]]%Z None (fun _ => 0%Z) [0] ∅).
  intros n Hn. discriminate Hn.
Defined.

Lemma apply_shift_evaluates_unshifted_at_difference_witness :
  let moved :=
    set_shift (set_optimal_solution_position (sphere 2) (Some [[1; 2]%Z])) [1; 2]%Z in
  (__evaluate (fun _ => 7%Z) moved [4; 4]%Z).2
  = (__evaluate (fun _ => 3%Z) (sphere 2) (zip_with ssub [4; 4]%Z [1; 2]%Z)).2 /\
  (__evaluate (fun _ => 7%Z) moved [4; 4]%Z).2
  = (v ← evaluate (sphere 2) (zip_with ssub [4; 4]%Z [1; 2]%Z);
     mret (replicate (length [4; 4]%Z) v)).
Proof.
  intros moved.
  apply (apply_shift_evaluates_unshifted_at_difference (sphere 2) moved).
  - split; reflexivity.
  - reflexivity.
  - reflexivity.
  - reflexivity.
  - reflexivity.
Defined.

Lemma evaluate_length_mismatch_raises_witness :
  (__evaluate (fun _ => 0%Z) (sphere 2) [1; 2; 3]%Z).2 = Raise broadcast_error.
Proof.
  apply (evaluate_length_mismatch_raises (sphere 2) [1; 2; 3]%Z (fun _ => 0%Z)).
  - reflexivity.
  - simpl. lia.
  - simpl. lia.
  - simpl. lia.
Defined.

(** * Further properties of the code *)

Section further_properties.
Context {R : Type} `{Scalar R}.
Add Ring scalar_ring_further : s_ring.

(** ** Parameters and settings *)

Lemma store_defaults_lookup {V} (given defaults target : gmap string V) name :
  store_defaults given defaults target !! name =
    match defaults !! name with
    | Some d => Some (default d (given !! name))
    | None => target !! name
    end.
Proof.
  revert name. unfold store_defaults.
  apply (map_fold_weak_ind (fun acc m => forall name,
    acc !! name = match m !! name with
                  | Some d => Some (default d (given !! name))
                  | None => target !! name
                  end)).
  - intros name. by rewrite lookup_empty.
  - intros i x m acc Hi IH name. destruct (decide (i = name)) as [->|Hne].
    + by rewrite !lookup_insert_eq.
    + rewrite !lookup_insert_ne by done. apply IH.
Qed.

Lemma store_defaults_dom {V} (given defaults target : gmap string V) :
  dom (store_defaults given defaults target) = dom defaults ∪ dom target.
Proof.
  apply set_eq. intros name.
  rewrite elem_of_union, !elem_of_dom, store_defaults_lookup.
  destruct (defaults !! name) as [d|].
  - split; [intros _; left; by eexists | by eexists].
  - split; [by right | intros [[? [=]]|?]; done].
Qed.

(** X1.  [validate_parameters] accepts the given parameters exactly when each
    of their names is the name of a default parameter; the check on the
    number of parameters never decides otherwise. *)
Theorem validate_parameters_accepts_known_names
    (self : ObjectiveFunction R) (params default_params : gmap string R) :
  (exists self', validate_parameters self params default_params = Ok self')
  <-> dom params ⊆ dom default_params.
Proof.
  unfold validate_parameters. case_decide as Hsize.
  - split; [by intros [? ?]|]. intros Hsub.
    apply dom_subseteq_size in Hsub. lia.
  - case_decide as Hall.
    + split; [|by eexists]. intros _ name. rewrite !elem_of_dom.
      intros [v Hv]. exact (Hall name v Hv).
    + split; [by intros [? ?]|]. intros Hsub. exfalso. apply Hall.
      intros name v Hv. apply elem_of_dom, Hsub, elem_of_dom. by eexists.
Qed.

(** X2.  After [validate_parameters] has accepted, the instance holds, under
    every default name, the given value if one was given and the default
    value otherwise; entries under other names stay; nothing but the
    parameters changes.  Starting from the empty dictionary, the names are
    exactly the default names. *)
Theorem validate_parameters_stores_given_or_default
    (self self' : ObjectiveFunction R) (params default_params : gmap string R) :
  validate_parameters self params default_params = Ok self' ->
  (forall name,
     parameters self' !! name =
       match default_params !! name with
       | Some d => Some (default d (params !! name))
       | None => parameters self !! name
       end) /\
  (parameters self = ∅ -> dom (parameters self') = dom default_params) /\
  self' = set_parameters self (parameters self').
Proof.
  unfold validate_parameters. case_decide; [done|]. case_decide; [|done].
  intros [= <-]. simpl. split; [|split; [|done]].
  - intros name. apply store_defaults_lookup.
  - intros ->. by rewrite store_defaults_dom, dom_empty_L, union_empty_r_L.
Qed.

(** X3.  [validate_settings] never refuses: a setting whose name is not a
    default setting is ignored, and the attributes end up holding, under
    every default name, the given value or else the default one. *)
Theorem validate_settings_ignores_unknown_names {V}
    (attributes settings default_settings : gmap string V) (unknown : string) (v : V) :
  default_settings !! unknown = None ->
  validate_settings attributes (<[unknown := v]> settings) default_settings
    = validate_settings attributes settings default_settings /\
  (forall name,
     validate_settings attributes settings default_settings !! name =
       match default_settings !! name with
       | Some d => Some (default d (settings !! name))
       | None => attributes !! name
       end).
Proof.
  intros Hunknown. unfold validate_settings. split.
  - apply map_eq. intros name. rewrite !store_defaults_lookup.
    destruct (default_settings !! name) as [d|] eqn:Hname; [|done].
    rewrite lookup_insert_ne; [done|]. congruence.
  - intros name. apply store_defaults_lookup.
Qed.

(** ** Construction *)

Lemma any_zeros n : any (zeros n : list R) = false.
Proof.
  unfold any, zeros. induction n as [|n IH]; simpl; [done|].
  by rewrite truthy_zero, IH.
Qed.

(** X4.  The constructor accepts exactly when no entry of the optimal points
    is different from zero (or there are none), or else when the first
    optimal point and the bounds both have [ndim] entries: an optimum at the
    origin switches both size checks off. *)
Theorem init_accepts_iff
    (n : nat) (bounds : list (R * R)) (optimum : option (list (list R)))
    (params : gmap string R) (method : gmap string R -> list R -> result R)
    (has_return : bool) :
  (exists self, __init__ n bounds optimum params method has_return = Ok self)
  <-> (np_any optimum = false \/
       (optimal_solution_dim optimum = n /\ length bounds = n)).
Proof.
  unfold __init__. destruct (np_any optimum).
  - repeat case_decide.
    + split; [by intros [? ?]|]. intros [?|[? ?]]; done.
    + split; [by intros [? ?]|]. intros [?|[? ?]]; done.
    + split; [|by eexists]. intros _. right. split; lia.
  - split; [by left | by eexists].
Qed.

(** X5.  An instance that the constructor returns has the shift
    [np.zeros(ndim)], no noise and no call counted, so it is shift-free and
    noise-free; if some entry of its optimal points is not zero, its bounds
    and its first optimal point have [ndim] entries. *)
Theorem init_gives_fresh_instance
    (n : nat) (bounds : list (R * R)) (optimum : option (list (list R)))
    (params : gmap string R) (method : gmap string R -> list R -> result R)
    (has_return : bool) (self : ObjectiveFunction R) :
  __init__ n bounds optimum params method has_return = Ok self ->
  ndim self = n /\ shift self = zeros n /\ nb_calls self = 0 /\
  parameters self = params /\ search_space_bounds self = Some bounds /\
  noise_free self /\ shift_free self /\
  (np_any optimum = true ->
   length bounds = ndim self /\ optimal_solution_dim optimum = ndim self).
Proof.
  unfold __init__. intros Hinit.
  assert (Hfields : ndim self = n /\ shift self = zeros n /\ nb_calls self = 0 /\
                    parameters self = params /\ search_space_bounds self = Some bounds /\
                    noise_mean self = s0 /\ noise_variance self = s0).
  { destruct (np_any optimum); repeat case_decide; simplify_eq; by repeat split. }
  destruct Hfields as (Hn & Hs & Hc & Hp & Hb & Hm & Hv).
  repeat split; try done.
  - unfold shift_free. rewrite Hs. apply any_zeros.
  - rewrite Hn. destruct (np_any optimum); [|done].
    repeat case_decide; simplify_eq. lia.
  - rewrite Hn. destruct (np_any optimum); [|done].
    repeat case_decide; simplify_eq. lia.
Qed.

(** ** Counting and evaluating *)

(** X6.  Every call of [__evaluate] is counted, the ones that raise
    included: after a series of calls the counter has grown by their number,
    there is one outcome per call, and shift, noise and parameters are as
    before. *)
Theorem evaluate_each_counts_every_call
    (self : ObjectiveFunction R) (calls : list ((nat -> R) * list R)) :
  nb_calls (evaluate_each self calls).1 = nb_calls self + length calls /\
  length (evaluate_each self calls).2 = length calls /\
  shift (evaluate_each self calls).1 = shift self /\
  noise_mean (evaluate_each self calls).1 = noise_mean self /\
  noise_variance (evaluate_each self calls).1 = noise_variance self /\
  parameters (evaluate_each self calls).1 = parameters self.
Proof.
  induction calls as [|[noise position] rest IH] in self |- *; simpl.
  - repeat split; lia.
  - specialize (IH (set_nb_calls self (S (nb_calls self)))).
    destruct (evaluate_each (set_nb_calls self (S (nb_calls self))) rest)
      as [self2 values].
    simpl in *. destruct IH as (Hc & Hl & Hs & Hm & Hv & Hp).
    repeat split; try done; lia.
Qed.

(** X7.  With variance zero, a position that has as many entries as the
    shift is evaluated to an array of [len(position)] copies of
    [evaluate(position - shift) + noise_mean], whatever samples are drawn; if
    the formula raises, so does [__evaluate]. *)
Theorem evaluate_without_variance
    (self : ObjectiveFunction R) (noise : nat -> R) (position : list R) :
  noise_variance self = s0 ->
  length position = length (shift self) ->
  (__evaluate noise self position).2 =
    (v ← evaluate self (zip_with ssub position (shift self));
     mret (replicate (length position) (sadd v (noise_mean self)))).
Proof.
  intros Hvar Hlen. unfold __evaluate, count_calls. simpl.
  set (self' := set_nb_calls self _).
  assert (Hsub : vsub position (shift self') = Ok (zip_with ssub position (shift self)))
    by (by apply vsub_same_length).
  destruct (evaluate self (zip_with ssub position (shift self))) as [v|e] eqn:Hev.
  - by rewrite (evaluate_body_variance_zero self' noise position _ v Hvar Hsub Hev).
  - by rewrite (evaluate_body_formula_raises self' noise position _ e Hsub Hev).
Qed.

(** X8.  Whenever [__evaluate] returns, what it returns has one entry per
    entry of the position it was given, also when the subtraction of the
    shift stretched the position. *)
Theorem evaluate_returns_one_entry_per_coordinate
    (self : ObjectiveFunction R) (noise : nat -> R) (position values : list R) :
  (__evaluate noise self position).2 = Ok values ->
  length values = length position.
Proof.
  unfold __evaluate, count_calls, evaluate_body. simpl.
  destruct (vsub position (shift self)) as [q|e]; simpl; [|done].
  destruct (evaluate_method self (parameters self) q) as [v|e]; simpl; [|done].
  intros [= <-]. by rewrite length_map, length_randn.
Qed.

(** ** apply_shift *)

Lemma iadd_same_length (row s : list R) :
  length row = length s -> iadd row s = Ok (zip_with sadd row s).
Proof. intros Hlen. unfold iadd. by rewrite decide_True. Qed.

Lemma iadd_ok_iff (row s : list R) :
  (exists row', iadd row s = Ok row') <-> (length row = length s \/ length s = 1).
Proof.
  unfold iadd. case_decide as Hlen.
  - split; [by left | by eexists].
  - destruct s as [|y [|y' s]]; simpl in *.
    + split; [by intros [? ?] | intros [?|?]; done].
    + split; [by right | by eexists].
    + split; [by intros [? ?] | intros [?|?]; [done|lia]].
Qed.

Lemma mapM_iadd_same_length (rows : list (list R)) (s : list R) :
  Forall (fun row => length row = length s) rows ->
  mapM (fun row => iadd row s) rows = Ok (map (fun row => zip_with sadd row s) rows).
Proof.
  induction 1 as [|row rows Hrow _ IH]; simpl; [done|].
  by rewrite iadd_same_length, IH.
Qed.

Lemma mapM_iadd_ok_iff (rows : list (list R)) (s : list R) :
  (exists rows', mapM (fun row => iadd row s) rows = Ok rows')
  <-> Forall (fun row => length row = length s \/ length s = 1) rows.
Proof.
  induction rows as [|row rows IH]; simpl.
  - split; [by constructor | by eexists].
  - rewrite Forall_cons, <- IH, <- iadd_ok_iff.
    destruct (iadd row s) as [row'|e]; simpl.
    + destruct (mapM _ rows) as [rows'|e]; simpl.
      * split; [intros _; split; by eexists | by eexists].
      * split; [by intros [? ?] | by intros [_ [? ?]]].
    + split; [by intros [? ?] | by intros [[? ?] _]].
Qed.

(** X9.  [apply_shift] succeeds exactly when there are no optimal points to
    move or the shift can be added in place to each of them: it has one
    entry, or as many entries as the point.  The length of the shift is not
    compared with [ndim]. *)
Theorem apply_shift_accepts_iff (self : ObjectiveFunction R) (s : list R) :
  (exists self', apply_shift self s = Ok self')
  <-> (forall rows, optimal_solution_position self = Some rows ->
         Forall (fun row => length row = length s \/ length s = 1) rows).
Proof.
  unfold apply_shift. destruct (optimal_solution_position self) as [rows|].
  - split.
    + intros [self' Hok] ? [= <-]. apply mapM_iadd_ok_iff.
      destruct (mapM (fun row => iadd row s) rows) as [rows'|e]; [by eexists | done].
    + intros Hall.
      destruct (proj2 (mapM_iadd_ok_iff rows s) (Hall rows eq_refl)) as [rows' ->].
      by eexists.
  - split; [by intros _ ? [=] | by eexists].
Qed.

(** X10.  Two shifts in a row: the second shift replaces the first as the
    shift of the instance, while the optimal points have been moved by both. *)
Theorem apply_shift_twice
    (self : ObjectiveFunction R) (rows : list (list R)) (s t : list R) :
  optimal_solution_position self = Some rows ->
  Forall (fun row => length row = length s) rows ->
  length t = length s ->
  exists self1 self2,
    apply_shift self s = Ok self1 /\
    apply_shift self1 t = Ok self2 /\
    shift self2 = t /\
    optimal_solution_position self2 =
      Some (map (fun row => zip_with sadd (zip_with sadd row s) t) rows).
Proof.
  intros Hopt Hrows Ht. unfold apply_shift. rewrite Hopt.
  rewrite (mapM_iadd_same_length rows s Hrows). simpl.
  eexists. eexists. split; [reflexivity|]. simpl.
  rewrite (mapM_iadd_same_length _ t).
  - simpl. split; [reflexivity|]. split; [done|].
    by rewrite map_map.
  - apply Forall_map. eapply Forall_impl; [exact Hrows|].
    intros row Hrow. simpl in *. rewrite length_zip_with. lia.
Qed.

(** ** Staging *)

Lemma truthy_false (x : R) : truthy x = false -> x = s0.
Proof.
  unfold truthy. intros Hx. apply bool_decide_eq_false in Hx.
  destruct (decide (x = s0)); [done|]. by destruct Hx.
Qed.

Lemma truthy_true (x : R) : truthy x = true <-> x ≠ s0.
Proof. unfold truthy. apply bool_decide_eq_true. Qed.

(** X12.  For an instance without shift, producing the worker function
    fails exactly when the instance has noise (mean or variance not zero) and
    the text of [evaluate] has no return statement; the failure is the
    ValueError of [__decouple_shift_noise]. *)
Theorem staging_fails_iff (self : ObjectiveFunction R) :
  shift_free self ->
  ((exists e, __decouple_shift_noise self (evaluate_source self) = Raise e)
   <-> ((noise_mean self ≠ s0 \/ noise_variance self ≠ s0) /\
        evaluate_has_return self = false)) /\
  (forall e, __decouple_shift_noise self (evaluate_source self) = Raise e ->
     e = ValueError "Could not find the return statement in the evaluate method.").
Proof.
  unfold shift_free, __decouple_shift_noise. intros ->. simpl.
  destruct (truthy (noise_mean self) || truthy (noise_variance self)) eqn:Hnoisy.
  - apply orb_true_iff in Hnoisy. rewrite !truthy_true in Hnoisy.
    destruct (evaluate_has_return self).
    + split; [|done]. split; [by intros [? ?] | by intros [_ ?]].
    + split; [|by intros e [= <-]]. split; [done | by eexists].
  - apply orb_false_iff in Hnoisy as [Hm%truthy_false Hv%truthy_false].
    split; [|done]. split; [by intros [? ?] | intros [[?|?] _]; done].
Qed.


(** ** parallel_evaluate *)



Lemma submit_all_length (decoupled_evaluate : option (code R)) (samples : nat -> R)
    (positions : list (list R)) (futures : list (result R)) :
  submit_all decoupled_evaluate samples positions = Ok futures ->
  length futures = length positions.
Proof.
  unfold submit_all. destruct decoupled_evaluate as [c|].
  - intros [= <-]. apply length_imap.
  - destruct positions; [by intros [= <-] | done].
Qed.

(** X15.  The outcome of a call, its results (or the exception it raises) and
    the file system it leaves, is the same for any two orders in which the
    tasks complete. *)
Theorem parallel_evaluate_order_independent
    (module_file : string) (self : ObjectiveFunction R) (positions : list (list R))
    (max_workers : option Z) (samples : nat -> R) (completed completed' : list nat)
    (fs : gmap string (code R)) :
  completed ≡ₚ seq 0 (length positions) ->
  completed' ≡ₚ seq 0 (length positions) ->
  parallel_evaluate module_file self positions max_workers samples completed fs
  = parallel_evaluate module_file self positions max_workers samples completed' fs.
Proof.
  intros Hperm Hperm'. unfold parallel_evaluate.
  destruct (__decouple_evaluate self fs) as [fs1|e]; [|done].
  destruct (import_decoupled_evaluate module_file fs1) as [decoupled_evaluate|e]; [|done].
  destruct (ProcessPoolExecutor max_workers) as [[]|e]; [|done].
  destruct (submit_all decoupled_evaluate samples positions) as [futures|e] eqn:Hsub;
    [|done].
  apply submit_all_length in Hsub. rewrite <- Hsub in *.
  by rewrite !collect_all.
Qed.

(** X16.  When the worker function cannot be produced, the call raises
    "Failed to decouple the evaluate method" whatever the positions and
    [max_workers] are, and removes a file left at the staging path. *)
Theorem parallel_evaluate_staging_failure
    (module_file : string) (self : ObjectiveFunction R) (positions : list (list R))
    (max_workers : option Z) (samples : nat -> R) (completed : list nat)
    (fs : gmap string (code R)) (e : exn) :
  __decouple_shift_noise self (evaluate_source self) = Raise e ->
  parallel_evaluate module_file self positions max_workers samples completed fs
  = (delete DECOUPLED_FUNCTION_PATH fs, Raise decouple_failed).
Proof.
  intros He. unfold parallel_evaluate, __decouple_evaluate. rewrite He. simpl.
  by rewrite delete_decoupled_evaluate_spec.
Qed.

(** X17.  Once the worker function is staged and the import has found its
    module file, a [max_workers] below 1 makes the call raise the pool's
    ValueError and leave the staged file in place, holding the worker
    function: the pool is built outside the [try], so nothing removes the
    file. *)
Theorem parallel_evaluate_refused_pool_keeps_file
    (module_file : string) (self : ObjectiveFunction R) (c c' : code R)
    (positions : list (list R)) (n : Z) (samples : nat -> R)
    (completed : list nat) (fs : gmap string (code R)) :
  __decouple_shift_noise self (evaluate_source self) = Ok c ->
  <[DECOUPLED_FUNCTION_PATH := c]> fs !! module_file = Some c' ->
  (n < 1)%Z ->
  parallel_evaluate module_file self positions (Some n) samples completed fs
  = (<[DECOUPLED_FUNCTION_PATH := c]> fs,
     Raise (ValueError "max_workers must be greater than 0")).
Proof.
  intros Hc Hmodule Hn. unfold parallel_evaluate, __decouple_evaluate.
  rewrite Hc, (pool_rejects n Hn). simpl.
  by rewrite import_after_staging, Hmodule.
Qed.

(** X18.  When the import statement resolves to a file other than the staged
    one and that file does not exist, the call raises "Failed to decouple the
    evaluate method" and removes the staged file, whatever [max_workers] is. *)
Theorem parallel_evaluate_import_failure
    (module_file : string) (self : ObjectiveFunction R) (c : code R)
    (positions : list (list R)) (max_workers : option Z) (samples : nat -> R)
    (completed : list nat) (fs : gmap string (code R)) :
  __decouple_shift_noise self (evaluate_source self) = Ok c ->
  module_file ≠ DECOUPLED_FUNCTION_PATH ->
  fs !! module_file = None ->
  parallel_evaluate module_file self positions max_workers samples completed fs
  = (delete DECOUPLED_FUNCTION_PATH fs, Raise decouple_failed).
Proof.
  intros Hc Hne Hnone. unfold parallel_evaluate, __decouple_evaluate.
  rewrite Hc. simpl. unfold import_decoupled_evaluate.
  rewrite lookup_insert_eq, decide_True by (by eexists).
  rewrite lookup_insert_ne, Hnone by done.
  by rewrite delete_decoupled_evaluate_spec, delete_insert_eq.
Qed.

(** X22.  Calling the instance, [self(position)], runs the subclass's
    [evaluate] directly: a shift or noise applied to the instance does not
    change what it returns. *)
Theorem call_ignores_shift_and_noise
    (self self' : ObjectiveFunction R) (s position : list R) (mean variance : R) :
  apply_shift (apply_noise self mean variance) s = Ok self' ->
  __call__ self' position = __call__ self position.
Proof.
  intros Happ. apply apply_shift_fields in Happ as (_ & Hpar & Hev & _).
  unfold __call__, evaluate. by rewrite Hev, Hpar.
Qed.

(** X23.  The expression that [check_constraints] is written to return,
    [np.any((position < low) | (position > high))], is [False] exactly when
    no coordinate is below its low bound or above its high bound: [False]
    means within bounds, the opposite of what the docstring says. *)
Theorem outside_bounds_false_iff_within (rows : list (R * R)) (position : list R) :
  length position = length rows ->
  (outside_bounds rows position = Ok false <->
   forall i x lo hi, position !! i = Some x -> rows !! i = Some (lo, hi) ->
                     sltb x lo = false /\ sltb hi x = false).
Proof.
  intros Hlen. destruct (outside_bounds_spec rows position Hlen) as (b & -> & Hb).
  split.
  - intros [= ->] i x lo hi Hx Hrow.
    destruct (sltb x lo) eqn:Hlo, (sltb hi x) eqn:Hhi; try done;
      (assert (false = true) as Habs; [|done]); apply Hb;
      exists i, x, lo, hi; rewrite ?Hlo, ?Hhi; auto.
  - intros Hin. f_equal. apply not_true_is_false. intros Htrue.
    apply Hb in Htrue as (i & x & lo & hi & Hx & Hrow & Hout).
    destruct (Hin i x lo hi Hx Hrow) as [Hlo Hhi].
    destruct Hout; congruence.
Qed.

End further_properties.

(** ** save and load, further *)

Section persistence_further.
Context {R : Type}.
Variable artifact : Type.
Variable pickle_dumps : ObjectiveFunction R -> result artifact.
Variable pickle_loads : artifact -> result (ObjectiveFunction R).

(** X19.  [save] touches only the file it is given: what [load] finds at any
    other path is what it found before, whether the save succeeded or not. *)
Theorem save_leaves_other_paths
    (self : ObjectiveFunction R) (path other : string)
    (disk : gmap string (option artifact)) :
  other ≠ path ->
  load pickle_loads other (save pickle_dumps self path disk).1
  = load pickle_loads other disk.
Proof.
  intros Hne. unfold save, load.
  destruct (pickle_dumps self); simpl; by rewrite lookup_insert_ne.
Qed.

(** X20.  A [save] whose [pickle.dump] raises passes the exception on and
    leaves an empty file: the file was opened for writing first, so what was
    saved at that path before is lost, and [load] raises EOFError there. *)
Theorem failed_save_empties_file
    (self : ObjectiveFunction R) (path : string)
    (disk : gmap string (option artifact)) (e : exn) :
  pickle_dumps self = Raise e ->
  (save pickle_dumps self path disk).2 = Raise e /\
  (save pickle_dumps self path disk).1 !! path = Some None /\
  load pickle_loads path (save pickle_dumps self path disk).1
  = Raise (EOFError "Ran out of input").
Proof.
  intros He. unfold save, load. rewrite He. simpl.
  by rewrite lookup_insert_eq.
Qed.

End persistence_further.

(** ** The further properties at concrete inputs *)

Lemma validate_parameters_stores_given_or_default_witness :
  let params : gmap string Z := {["a" := 7%Z]} in
  let default_params : gmap string Z := <["b" := 2%Z]> {["a" := 20%Z]} in
  let self' := set_parameters (sphere 2) (store_defaults params default_params ∅) in
  (forall name,
     parameters self' !! name =
       match default_params !! name with
       | Some d => Some (default d (params !! name))
       | None => parameters (sphere 2) !! name
       end) /\
  (parameters (sphere 2) = ∅ -> dom (parameters self') = dom default_params) /\
  self' = set_parameters (sphere 2) (parameters self').
Proof.
  intros params default_params self'.
  apply (validate_parameters_stores_given_or_default (sphere 2) self' params default_params).
  reflexivity.
Defined.

Lemma validate_settings_ignores_unknown_names_witness :
  let attributes : gmap string Z := {["nb_calls" := 3%Z]} in
  let settings : gmap string Z := {["ndim" := 5%Z]} in
  let default_settings : gmap string Z := <["resolution" := 100%Z]> {["ndim" := 2%Z]} in
  validate_settings attributes (<["colour" := 1%Z]> settings) default_settings
    = validate_settings attributes settings default_settings /\
  (forall name,
     validate_settings attributes settings default_settings !! name =
       match default_settings !! name with
       | Some d => Some (default d (settings !! name))
       | None => attributes !! name
       end).
Proof.
  intros attributes settings default_settings.
  apply (validate_settings_ignores_unknown_names attributes settings default_settings
           "colour" 1%Z).
  reflexivity.
Defined.

Lemma init_gives_fresh_instance_witness :
  let optimum := Some [[1; 2]%Z] in
  let bounds := [(0, 5); (0, 5)]%Z in
  let self :=
    {| ndim := 2;
       search_space_bounds := Some bounds;
       optimal_solution_position := optimum;
       parameters := ∅;
       shift := zeros 2;
       noise_mean := 0%Z;
       noise_variance := 0%Z;
       nb_calls := 0;
       evaluate_method := sphere_formula;
       evaluate_has_return := true |} in
  ndim self = 2 /\ shift self = zeros 2 /\ nb_calls self = 0 /\
  parameters self = ∅ /\ search_space_bounds self = Some bounds /\
  noise_free self /\ shift_free self /\
  (np_any optimum = true ->
   length bounds = ndim self /\ optimal_solution_dim optimum = ndim self).
Proof.
  intros optimum bounds self.
  apply (init_gives_fresh_instance 2 bounds optimum ∅ sphere_formula true self).
  reflexivity.
Defined.

Lemma evaluate_without_variance_witness :
  (__evaluate (fun i => Z.of_nat i) (apply_noise (set_shift (sphere 2) [1; 1]%Z) 5%Z 0%Z)
     [3; 4]%Z).2
  = (v ← evaluate (apply_noise (set_shift (sphere 2) [1; 1]%Z) 5%Z 0%Z)
           (zip_with ssub [3; 4]%Z [1; 1]%Z);
     mret (replicate 2 (sadd v 5%Z))).
Proof.
  apply (evaluate_without_variance (apply_noise (set_shift (sphere 2) [1; 1]%Z) 5%Z 0%Z)
           (fun i => Z.of_nat i) [3; 4]%Z).
  - reflexivity.
  - reflexivity.
Defined.

Lemma evaluate_returns_one_entry_per_coordinate_witness :
  length [18%Z] = length [3%Z].
Proof.
  apply (evaluate_returns_one_entry_per_coordinate (sphere 2) (fun _ => 0%Z) [3%Z] [18%Z]).
  reflexivity.
Defined.

Lemma apply_shift_twice_witness :
  exists self1 self2,
    apply_shift (sphere 2) [1; 1]%Z = Ok self1 /\
    apply_shift self1 [2; 3]%Z = Ok self2 /\
    shift self2 = [2; 3]%Z /\
    optimal_solution_position self2 =
      Some (map (fun row => zip_with sadd (zip_with sadd row [1; 1]%Z) [2; 3]%Z)
                [zeros 2]).
Proof.
  apply (apply_shift_twice (sphere 2) [zeros 2] [1; 1]%Z [2; 3]%Z).
  - reflexivity.
  - constructor; [reflexivity | constructor].
  - reflexivity.
Defined.

Lemma staging_fails_iff_witness :
  ((exists e, __decouple_shift_noise (apply_noise (sphere 2) 5%Z 0%Z)
                (evaluate_source (apply_noise (sphere 2) 5%Z 0%Z)) = Raise e)
   <-> ((noise_mean (apply_noise (sphere 2) 5%Z 0%Z) ≠ s0 \/
         noise_variance (apply_noise (sphere 2) 5%Z 0%Z) ≠ s0) /\
        evaluate_has_return (apply_noise (sphere 2) 5%Z 0%Z) = false)) /\
  (forall e, __decouple_shift_noise (apply_noise (sphere 2) 5%Z 0%Z)
               (evaluate_source (apply_noise (sphere 2) 5%Z 0%Z)) = Raise e ->
     e = ValueError "Could not find the return statement in the evaluate method.").
Proof.
  apply (staging_fails_iff (apply_noise (sphere 2) 5%Z 0%Z)).
  reflexivity.
Defined.



Lemma parallel_evaluate_order_independent_witness :
  parallel_evaluate DECOUPLED_FUNCTION_PATH quotient [[1]; [0]; [3]]%Z None
    (fun _ => 0%Z) [2; 0; 1] ∅
  = parallel_evaluate DECOUPLED_FUNCTION_PATH quotient [[1]; [0]; [3]]%Z None
      (fun _ => 0%Z) [0; 1; 2] ∅.
Proof.
  apply (parallel_evaluate_order_independent DECOUPLED_FUNCTION_PATH quotient
           [[1]; [0]; [3]]%Z None (fun _ => 0%Z) [2; 0; 1] [0; 1; 2] ∅).
  - exact (Permutation_cons_app [0; 1] [] 2 (Permutation_refl [0; 1])).
  - exact (Permutation_refl [0; 1; 2]).
Defined.

Lemma parallel_evaluate_staging_failure_witness :
  let self :=
    {| ndim := 1;
       search_space_bounds := Some [((-5)%Z, 5%Z)];
       optimal_solution_position := None;
       parameters := ∅;
       shift := zeros 1;
       noise_mean := 1%Z;
       noise_variance := 0%Z;
       nb_calls := 0;
       evaluate_method := fun _ _ => Raise (FormulaError "NotImplementedError");
       evaluate_has_return := false |} in
  parallel_evaluate DECOUPLED_FUNCTION_PATH self [[1%Z]] (Some 0%Z) (fun _ => 0%Z) [0]
    {[DECOUPLED_FUNCTION_PATH := evaluate_source (sphere 1)]}
  = (delete DECOUPLED_FUNCTION_PATH
       {[DECOUPLED_FUNCTION_PATH := evaluate_source (sphere 1)]},
     Raise decouple_failed).
Proof.
  intros self.
  apply (parallel_evaluate_staging_failure DECOUPLED_FUNCTION_PATH self [[1%Z]]
           (Some 0%Z) (fun _ => 0%Z) [0] _
           (ValueError "Could not find the return statement in the evaluate method.")).
  reflexivity.
Defined.

Lemma parallel_evaluate_refused_pool_keeps_file_witness :
  parallel_evaluate DECOUPLED_FUNCTION_PATH (sphere 2) [[1; 1]%Z] (Some (-1)%Z)
    (fun _ => 0%Z) [0] ∅
  = (<[DECOUPLED_FUNCTION_PATH := evaluate_source (sphere 2)]> ∅,
     Raise (ValueError "max_workers must be greater than 0")).
Proof.
  apply (parallel_evaluate_refused_pool_keeps_file DECOUPLED_FUNCTION_PATH (sphere 2)
           (evaluate_source (sphere 2)) (evaluate_source (sphere 2)) [[1; 1]%Z]
           (-1)%Z (fun _ => 0%Z) [0] ∅).
  - reflexivity.
  - reflexivity.
  - lia.
Defined.

Lemma parallel_evaluate_import_failure_witness :
  parallel_evaluate "./src/MDAF_benchmarks/tmp/decoupled_evaluate.py" (sphere 2)
    [[1; 1]%Z] None (fun _ => 0%Z) [0] ∅
  = (delete DECOUPLED_FUNCTION_PATH ∅, Raise decouple_failed).
Proof.
  apply (parallel_evaluate_import_failure
           "./src/MDAF_benchmarks/tmp/decoupled_evaluate.py" (sphere 2)
           (evaluate_source (sphere 2)) [[1; 1]%Z] None (fun _ => 0%Z) [0] ∅).
  - reflexivity.
  - discriminate.
  - reflexivity.
Defined.

Lemma save_leaves_other_paths_witness :
  load state_loads "b.pkl" (save state_dumps (sphere 2) "a.pkl"
                              {["b.pkl" := Some (sphere 1)]}).1
  = load state_loads "b.pkl" {["b.pkl" := Some (sphere 1)]}.
Proof.
  apply (save_leaves_other_paths (ObjectiveFunction Z) state_dumps state_loads
           (sphere 2) "a.pkl" "b.pkl").
  discriminate.
Defined.

Lemma failed_save_empties_file_witness :
  let refuse : ObjectiveFunction Z -> result (ObjectiveFunction Z) :=
    fun _ => Raise (Exception "PicklingError") in
  let disk : gmap string (option (ObjectiveFunction Z)) :=
    {["a.pkl" := Some (sphere 1)]} in
  (save refuse (sphere 2) "a.pkl" disk).2 = Raise (Exception "PicklingError") /\
  (save refuse (sphere 2) "a.pkl" disk).1 !! "a.pkl" = Some None /\
  load state_loads "a.pkl" (save refuse (sphere 2) "a.pkl" disk).1
  = Raise (EOFError "Ran out of input").
Proof.
  intros refuse disk.
  apply (failed_save_empties_file (ObjectiveFunction Z) refuse state_loads (sphere 2)
           "a.pkl" disk (Exception "PicklingError")).
  reflexivity.
Defined.


Lemma call_ignores_shift_and_noise_witness :
  __call__ (set_shift (set_optimal_solution_position
                         (apply_noise (sphere 2) 5%Z 1%Z) (Some [[1; 1]%Z])) [1; 1]%Z)
           [1; 1]%Z
  = __call__ (sphere 2) [1; 1]%Z.
Proof.
  apply (call_ignores_shift_and_noise (sphere 2) _ [1; 1]%Z [1; 1]%Z 5%Z 1%Z).
  reflexivity.
Defined.

Lemma outside_bounds_false_iff_within_witness :
  outside_bounds [((-5)%Z, 5%Z); ((-5)%Z, 5%Z)] [0; 5]%Z = Ok false <->
  forall i x lo hi, [0; 5]%Z !! i = Some x ->
                    [((-5)%Z, 5%Z); ((-5)%Z, 5%Z)] !! i = Some (lo, hi) ->
                    sltb x lo = false /\ sltb hi x = false.
Proof.
  apply (outside_bounds_false_iff_within [((-5)%Z, 5%Z); ((-5)%Z, 5%Z)] [0; 5]%Z).
  reflexivity.
Defined.
